(** * Record Store Gateway: [KhoHang_API/app/firestore_service.py]

    A shallow embedding of the Firestore helper module and the properties
    of its functions.  The module is a flat set of functions that acquire a
    client handle, attempt one remote operation inside a [try]/[except]
    block, log a failure and return a boolean, a list or an optional record.

    Layout:
    - Python values, records (dicts) and the builtins the module uses;
    - exceptions, log records and the trace of remote operations;
    - the remote store as an interface ([Remote]), so that the gateway
      functions are stated once for every behaviour of the client library;
    - a statement monad with Python's three ways of leaving a block
      (fall through, [return], [raise]);
    - the seventeen functions of the module, in source order;
    - an in-memory instance of the remote store with injected faults;
    - the theorems. *)

From Stdlib Require Import ZArith Lia.
From stdpp Require Import base tactics option list sorting strings pretty gmap fin_maps.

Local Open Scope string_scope.
Local Open Scope list_scope.

(** ** Python values *)

(** The scalar field values of a record.  Floats and nested containers are
    not embedded: no function of the module inspects them. *)
Inductive value :=
| VNone
| VBool (b : bool)
| VInt (z : Z)
| VStr (s : string).

#[global] Instance value_eq_dec : EqDecision value.
Proof. solve_decision. Defined.

(** A record is a Python [dict] from field names to values. *)
Abbreviation record := (gmap string value).

(** Instances of Python's [Exception] class: the ones a builtin, a library
    call or an operator can raise, and the ones [except Exception]
    catches. *)
Inductive exn :=
| TypeError (msg : string)
| ValueError (msg : string)
| NameError (name : string)
| AttributeError (attr : string)
| RemoteError (code : string).

#[global] Instance exn_eq_dec : EqDecision exn.
Proof. solve_decision. Defined.

(** CPython converts an integer to text only if it has at most 4300
    decimal digits (the default of [sys.set_int_max_str_digits]), that is,
    if its absolute value is below this bound. *)
Definition str_digits_bound : Z := 10 ^ 4300.
Arguments str_digits_bound : simpl never.

(** [str(v)]: the text, or the [ValueError] CPython raises for an integer
    beyond the digit limit. *)
Definition py_str (v : value) : exn + string :=
  match v with
  | VNone => inr "None"
  | VBool true => inr "True"
  | VBool false => inr "False"
  | VInt z =>
      if (Z.abs z <? str_digits_bound)%Z then inr (pretty z)
      else inl (ValueError "Exceeds the limit (4300 digits) for integer string conversion")
  | VStr s => inr s
  end.

(** [d.get(k)]: the stored value, or [None] when the key is missing. *)
Definition dict_get (d : record) (k : string) : value :=
  default VNone (d !! k).

(** [a | b]: the union of two dicts in which the right operand wins. *)
Definition dict_or (a b : record) : record := b ∪ a.

(** Truth value of a [str]: only the empty string is falsy. *)
Definition str_truthy (s : string) : bool :=
  match s with
  | EmptyString => false
  | String _ _ => true
  end.

(** ** Log records, remote operations *)

Inductive level := WARNING | ERROR | EXCEPTION.

Inductive log_arg :=
| ArgExn (e : exn)
| ArgRecord (r : record)
| ArgValue (v : value)
| ArgStr (s : string).

(** One call of [logger.warning], [logger.error] or [logger.exception]:
    the level, the format string and its arguments. *)
Record log_entry := LogEntry {
  log_level : level;
  log_fmt : string;
  log_args : list log_arg
}.

Inductive direction := ASCENDING | DESCENDING.

#[global] Instance direction_eq_dec : EqDecision direction.
Proof. solve_decision. Defined.

(** The operations of the client library on the remote store: one call of
    [set], [update], [delete], [get] or [stream]. *)
Inductive remote_call :=
| CallSet (coll doc : string) (data : record)
| CallUpdate (coll doc : string) (data : record)
| CallDelete (coll doc : string)
| CallGet (coll doc : string)
| CallStream (coll : string) (order : option (string * direction)).

#[global] Instance remote_call_eq_dec : EqDecision remote_call.
Proof. solve_decision. Defined.

(** A [DocumentSnapshot]: [d.id], [d.exists] and the result of
    [d.to_dict()], which is [None] or a dict. *)
Record snapshot := Snapshot {
  snap_id : string;
  snap_exists : bool;
  snap_to_dict : option record
}.

(** ** The remote store as an interface *)

(** What [firestore_service] needs from [google.cloud.firestore]: client
    construction and the five document operations.  Each one may raise, and
    each one may change the state [R] of the library and the store. *)
Class Remote (R : Type) := {
  rpc_construct : R → option exn * R;
  rpc_set : string → string → record → R → option exn * R;
  rpc_update : string → string → record → R → option exn * R;
  rpc_delete : string → string → R → option exn * R;
  rpc_get : string → string → R → (exn + snapshot) * R;
  rpc_stream : string → option (string * direction) → R → (exn + list snapshot) * R
}.

(** ** Python objects and the statement monad *)

(** What a function of the module can return or hold in a local. *)
#[local] Set Warnings "-register-all".
Inductive pyobj :=
| ONone
| OBool (b : bool)
| OClient
| ODict (r : record)
| OList (l : list pyobj).

(** [x is None] *)
Definition is_none (x : pyobj) : bool :=
  match x with
  | ONone => true
  | _ => false
  end.

(** How a block of statements ends: it falls through to the next
    statement, it executes [return v], or it raises. *)
Inductive completion (A : Type) :=
| Normal (a : A)
| Returned (v : pyobj)
| Raised (e : exn).
Arguments Normal {A} a.
Arguments Returned {A} v.
Arguments Raised {A} e.

(** What the caller of a function sees. *)
Inductive outcome :=
| Value (v : pyobj)
| Escaped (e : exn).

(** [collection(name)] and [document(id)] build references locally;
    [order_by] builds a query.  None of them reaches the store. *)
Record collection_ref := CollectionRef { coll_name : string }.
Record document_ref := DocumentRef { doc_coll : string; doc_id : string }.
Record query := Query { q_coll : string; q_order : option (string * direction) }.

(** The character ["/"], which separates the elements of a path. *)
Definition slash : Ascii.ascii := Eval cbv in Ascii.ascii_of_nat 47.

(** The number of ["/"] in a text. *)
Fixpoint slashes (s : string) : nat :=
  match s with
  | EmptyString => 0
  | String c s' => (if Ascii.eqb c slash then 1 else 0) + slashes s'
  end.

(** The number of elements of the document path [collection/id] once the
    library has joined its parts and split them at every ["/"]. *)
Definition path_elements (coll id : string) : nat :=
  S (slashes coll) + S (slashes id).

(** The library's check of a document path ([verify_path]): the number of
    its elements is even. *)
Definition accepted (coll id : string) : bool :=
  Nat.even (path_elements coll id).

Definition all_documents (c : collection_ref) : query :=
  {| q_coll := coll_name c; q_order := None |}.

Definition order_by (c : collection_ref) (field : string) (dir : direction) : query :=
  {| q_coll := coll_name c; q_order := Some (field, dir) |}.

Section Gateway.
Context {R : Type} `{!Remote R}.

(** The state a call runs in: the module global [firestore] ([false] when
    the import failed and the global is [None]), the state of the remote
    library, every remote operation attempted so far with the exception it
    raised, if any, and the records written to [logger]. *)
Record world := World {
  firestore : bool;
  remote : R;
  calls : list (remote_call * option exn);
  log : list log_entry
}.

Definition py (A : Type) : Type := world → completion A * world.

#[global] Instance py_ret : MRet py := λ A a w, (Normal a, w).

#[global] Instance py_bind : MBind py := λ A B f m w,
  match m w with
  | (Normal a, w') => f a w'
  | (Returned v, w') => (Returned v, w')
  | (Raised e, w') => (Raised e, w')
  end.

(** [return v] *)
Definition py_return (v : pyobj) : py unit := λ w, (Returned v, w).

(** [raise e] *)
Definition py_raise {A} (e : exn) : py A := λ w, (Raised e, w).

(** [if c: body] *)
Definition py_if (c : bool) (body : py unit) : py unit :=
  if c then body else mret tt.

(** [try: body / except Exception as e: handler e] *)
Definition try_except {A} (body : py A) (handler : exn → py A) : py A := λ w,
  match body w with
  | (Raised e, w') => handler e w'
  | r => r
  end.

(** Calling a function from outside: a body that falls off its end
    returns [None]. *)
Definition invoke (body : py unit) (w : world) : outcome * world :=
  match body w with
  | (Normal _, w') => (Value ONone, w')
  | (Returned v, w') => (Value v, w')
  | (Raised e, w') => (Escaped e, w')
  end.

(** Calling a function from inside another one. *)
Definition call (body : py unit) : py pyobj := λ w,
  match invoke body w with
  | (Value v, w') => (Normal v, w')
  | (Escaped e, w') => (Raised e, w')
  end.

(** [for x in l] of a list comprehension. *)
Fixpoint py_for {A B} (f : A → py B) (l : list A) : py (list B) :=
  match l with
  | [] => mret []
  | x :: l' => y ← f x; ys ← py_for f l'; mret (y :: ys)
  end.

(** *** Logging *)

Definition emit (lvl : level) (fmt : string) (args : list log_arg) : py unit := λ w,
  (Normal tt,
   {| firestore := firestore w; remote := remote w; calls := calls w;
      log := log w ++ [LogEntry lvl fmt args] |}).

Definition logger_warning := emit WARNING.
Definition logger_error := emit ERROR.
Definition logger_exception := emit EXCEPTION.

(** *** The client library *)

(** One remote operation: run it on the library state, record it in the
    trace with its exception, then return its result or raise. *)
Definition remote_op {A} (c : remote_call) (op : R → (exn + A) * R) : py A := λ w,
  let '(res, r) := op (remote w) in
  let w' exc := {| firestore := firestore w; remote := r;
                   calls := calls w ++ [(c, exc)]; log := log w |} in
  match res with
  | inl e => (Raised e, w' (Some e))
  | inr a => (Normal a, w' None)
  end.

Definition lift_unit (op : R → option exn * R) (r : R) : (exn + unit) * R :=
  match op r with
  | (Some e, r') => (inl e, r')
  | (None, r') => (inr tt, r')
  end.

(** [firestore.Client()] *)
Definition firestore_Client : py pyobj := λ w,
  let '(res, r) := rpc_construct (remote w) in
  let w' := {| firestore := firestore w; remote := r; calls := calls w; log := log w |} in
  match res with
  | Some e => (Raised e, w')
  | None => (Normal OClient, w')
  end.

(** [client.collection(name)]: an attribute of the client object only. *)
Definition collection (client : pyobj) (name : string) : py collection_ref :=
  match client with
  | OClient => mret {| coll_name := name |}
  | _ => py_raise (AttributeError "collection")
  end.

(** [collection.document(id)]: the library checks the path when it builds
    the reference ([verify_path]) and refuses a document path with an odd
    number of elements, as an identifier with one ["/"] gives. *)
Definition document (c : collection_ref) (id : string) : py document_ref :=
  if accepted (coll_name c) id
  then mret {| doc_coll := coll_name c; doc_id := id |}
  else py_raise (ValueError "A document must have an even number of path elements").

(** [str(v)] as an expression: its text, or its exception raised. *)
Definition str_of (v : value) : py string :=
  match py_str v with
  | inr s => mret s
  | inl e => py_raise e
  end.

Definition doc_set (d : document_ref) (data : record) : py unit :=
  remote_op (CallSet (doc_coll d) (doc_id d) data)
            (lift_unit (rpc_set (doc_coll d) (doc_id d) data)).

Definition doc_update (d : document_ref) (data : record) : py unit :=
  remote_op (CallUpdate (doc_coll d) (doc_id d) data)
            (lift_unit (rpc_update (doc_coll d) (doc_id d) data)).

Definition doc_delete (d : document_ref) : py unit :=
  remote_op (CallDelete (doc_coll d) (doc_id d))
            (lift_unit (rpc_delete (doc_coll d) (doc_id d))).

Definition doc_get (d : document_ref) : py snapshot :=
  remote_op (CallGet (doc_coll d) (doc_id d)) (rpc_get (doc_coll d) (doc_id d)).

Definition stream (q : query) : py (list snapshot) :=
  remote_op (CallStream (q_coll q) (q_order q)) (rpc_stream (q_coll q) (q_order q)).

(** [d.to_dict() | {"id": d.id}]: [|] is not defined on [None]. *)
Definition with_id (d : snapshot) : py pyobj :=
  match snap_to_dict d with
  | Some r => mret (ODict (dict_or r {[ "id" := VStr (snap_id d) ]}))
  | None => py_raise (TypeError "unsupported operand type(s) for |: 'NoneType' and 'dict'")
  end.

(** [d.to_dict()] as a list element. *)
Definition to_dict (d : snapshot) : pyobj :=
  match snap_to_dict d with
  | Some r => ODict r
  | None => ONone
  end.

(** [firestore is None]: reads the module global. *)
Definition firestore_is_none : py bool := λ w, (Normal (negb (firestore w)), w).

(** A name that is neither a local, a parameter nor a global of the module. *)
Definition unbound_name {A} (name : string) : py A := py_raise (NameError name).

(** ** The module, in source order *)

(** Python does not enforce the annotations of the parameters.  An
    identifier that the source passes through [str] ([item_id],
    [supplier_id], [warehouse_id]) is any value; a [record_id], which the
    source hands to [document] as it is, is text.  [str] and [document]
    are evaluated where the source has them: in [save_item] the
    conversion comes before the [try], everywhere else both are inside
    it. *)

Definition get_client : py unit :=
  missing ← firestore_is_none;
  py_if missing
    (logger_warning "google-cloud-firestore not installed" [];;
     py_return ONone);;
  try_except
    (c ← firestore_Client; py_return c)
    (λ e, logger_exception "Failed to create Firestore client: %s" [ArgExn e];;
          py_return ONone).

Definition save_item (item : record) : py unit :=
  client ← call get_client;
  py_if (is_none client) (py_return (OBool false));;
  doc_id ← str_of (dict_get item "id");
  py_if (negb (str_truthy doc_id))
    (logger_error "Item missing id: %s" [ArgRecord item];;
     py_return (OBool false));;
  try_except
    (c ← collection client "items";
     d ← document c doc_id;
     doc_set d item;;
     py_return (OBool true))
    (λ _, logger_exception "Failed to save item to Firestore: %s" [ArgRecord item];;
          py_return (OBool false)).

Definition update_item (item_id : value) (data : record) : py unit :=
  client ← call get_client;
  py_if (is_none client) (py_return (OBool false));;
  try_except
    (c ← collection client "items";
     id ← str_of item_id;
     d ← document c id;
     doc_update d data;;
     py_return (OBool true))
    (λ _, logger_exception "Failed to update item %s in Firestore" [ArgValue item_id];;
          py_return (OBool false)).

Definition delete_item (item_id : value) : py unit :=
  client ← call get_client;
  py_if (is_none client) (py_return (OBool false));;
  try_except
    (c ← collection client "items";
     id ← str_of item_id;
     d ← document c id;
     doc_delete d;;
     py_return (OBool true))
    (λ _, logger_exception "Failed to delete item %s from Firestore" [ArgValue item_id];;
          py_return (OBool false)).

Definition get_all_items : py unit :=
  client ← call get_client;
  py_if (is_none client) (py_return (OList []));;
  try_except
    (c ← collection client "items";
     docs ← stream (all_documents c);
     l ← py_for (λ d, mret (to_dict d)) docs;
     py_return (OList l))
    (λ _, logger_exception "Failed to fetch items from Firestore" [];;
          py_return (OList [])).

Definition get_stock_out_records : py unit :=
  client ← call get_client;
  py_if (is_none client) (py_return (OList []));;
  try_except
    (c ← collection client "stock_out";
     docs ← stream (order_by c "created_at" DESCENDING);
     l ← py_for with_id docs;
     py_return (OList l))
    (λ _, logger_exception "Failed to fetch stock_out records from Firestore" [];;
          py_return (OList [])).

Definition get_stock_out_record (record_id : string) : py unit :=
  client ← call get_client;
  py_if (is_none client) (py_return ONone);;
  try_except
    (c ← collection client "stock_out";
     d ← document c record_id;
     doc ← doc_get d;
     py_if (negb (snap_exists doc)) (py_return ONone);;
     r ← with_id doc;
     py_return r)
    (λ _, logger_exception "Failed to get stock_out record %s from Firestore"
            [ArgStr record_id];;
          py_return ONone).

Definition save_stock_out (record_id : string) (data : record) : py unit :=
  client ← call get_client;
  py_if (is_none client) (py_return (OBool false)).

Definition save_stock_in (record_id : string) (data : record) : py unit :=
  client ← call get_client;
  py_if (is_none client) (py_return (OBool false));;
  try_except
    (c ← collection client "stock_in";
     d ← document c record_id;
     doc_set d data;;
     py_return (OBool true))
    (λ _, logger_exception "Failed to save stock_in %s to Firestore" [ArgStr record_id];;
          py_return (OBool false)).

Definition get_stock_in_records : py unit :=
  client ← call get_client;
  py_if (is_none client) (py_return (OList []));;
  try_except
    (c ← collection client "stock_in";
     docs ← stream (order_by c "created_at" DESCENDING);
     l ← py_for with_id docs;
     py_return (OList l))
    (λ _, logger_exception "Failed to fetch stock_in records from Firestore" [];;
          py_return (OList [])).

(** The first [try] block of [delete_stock_in]. *)
Definition delete_stock_in_head (record_id : string) : py unit :=
  client ← call get_client;
  py_if (is_none client) (py_return (OBool false));;
  try_except
    (c ← collection client "stock_in";
     d ← document c record_id;
     doc_delete d;;
     py_return (OBool true))
    (λ _, logger_exception "Failed to delete stock_in %s from Firestore" [ArgStr record_id];;
          py_return (OBool false)).

(** [delete_stock_in] as written: a second [try] block follows the first
    one.  It names [data], which is not bound in this function. *)
Definition delete_stock_in (record_id : string) : py unit :=
  client ← call get_client;
  py_if (is_none client) (py_return (OBool false));;
  try_except
    (c ← collection client "stock_in";
     d ← document c record_id;
     doc_delete d;;
     py_return (OBool true))
    (λ _, logger_exception "Failed to delete stock_in %s from Firestore" [ArgStr record_id];;
          py_return (OBool false));;
  try_except
    (c ← collection client "stock_out";
     d ← document c record_id;
     data ← unbound_name "data";
     doc_set d data;;
     py_return (OBool true))
    (λ _, logger_exception "Failed to save stock_out %s to Firestore" [ArgStr record_id];;
          py_return (OBool false)).

Definition delete_stock_out (record_id : string) : py unit :=
  client ← call get_client;
  py_if (is_none client) (py_return (OBool false));;
  try_except
    (c ← collection client "stock_out";
     d ← document c record_id;
     doc_delete d;;
     py_return (OBool true))
    (λ _, logger_exception "Failed to delete stock_out %s from Firestore" [ArgStr record_id];;
          py_return (OBool false)).

Definition get_all_suppliers : py unit :=
  client ← call get_client;
  py_if (is_none client) (py_return (OList []));;
  try_except
    (c ← collection client "suppliers";
     docs ← stream (all_documents c);
     l ← py_for with_id docs;
     py_return (OList l))
    (λ _, logger_exception "Failed to fetch suppliers from Firestore" [];;
          py_return (OList [])).

Definition save_supplier (supplier_id : value) (data : record) : py unit :=
  client ← call get_client;
  py_if (is_none client) (py_return (OBool false));;
  try_except
    (c ← collection client "suppliers";
     id ← str_of supplier_id;
     d ← document c id;
     doc_set d data;;
     py_return (OBool true))
    (λ _, logger_exception "Failed to save supplier %s to Firestore" [ArgValue supplier_id];;
          py_return (OBool false)).

Definition delete_supplier (supplier_id : value) : py unit :=
  client ← call get_client;
  py_if (is_none client) (py_return (OBool false));;
  try_except
    (c ← collection client "suppliers";
     id ← str_of supplier_id;
     d ← document c id;
     doc_delete d;;
     py_return (OBool true))
    (λ _, logger_exception "Failed to delete supplier %s from Firestore" [ArgValue supplier_id];;
          py_return (OBool false)).

Definition get_all_warehouses : py unit :=
  client ← call get_client;
  py_if (is_none client) (py_return (OList []));;
  try_except
    (c ← collection client "warehouses";
     docs ← stream (all_documents c);
     l ← py_for with_id docs;
     py_return (OList l))
    (λ _, logger_exception "Failed to fetch warehouses from Firestore" [];;
          py_return (OList [])).

Definition save_warehouse (warehouse_id : value) (data : record) : py unit :=
  client ← call get_client;
  py_if (is_none client) (py_return (OBool false));;
  try_except
    (c ← collection client "warehouses";
     id ← str_of warehouse_id;
     d ← document c id;
     doc_set d data;;
     py_return (OBool true))
    (λ _, logger_exception "Failed to save warehouse %s to Firestore" [ArgValue warehouse_id];;
          py_return (OBool false)).

Definition delete_warehouse (warehouse_id : value) : py unit :=
  client ← call get_client;
  py_if (is_none client) (py_return (OBool false));;
  try_except
    (c ← collection client "warehouses";
     id ← str_of warehouse_id;
     d ← document c id;
     doc_delete d;;
     py_return (OBool true))
    (λ _, logger_exception "Failed to delete warehouse %s from Firestore" [ArgValue warehouse_id];;
          py_return (OBool false)).

End Gateway.

(** ** An in-memory remote store *)

Module MemStore.

(** Modelled from the spec: the remote document store behind
    [google.cloud.firestore], which is not part of the repository.  The
    spec's external interface gives it named collections of documents,
    [set] (full replace), [update] (partial merge onto an existing
    document), [delete] (idempotent removal), [get] (single document with
    an existence flag) and [stream] (collection-wide iteration with
    optional ordering by field name and direction).  [credentials] is the
    ambient configuration: [Some e] makes client construction raise [e].
    [faults] schedules transport failures: each operation consumes the head
    of the list and raises it when it is [Some e]. *)
Record store := Store {
  docs : gmap (string * string) record;
  credentials : option exn;
  faults : list (option exn)
}.

Definition next_fault (σ : store) : option exn * store :=
  match faults σ with
  | [] => (None, σ)
  | f :: fs => (f, {| docs := docs σ; credentials := credentials σ; faults := fs |})
  end.

Definition with_docs (σ : store) (d : gmap (string * string) record) : store :=
  {| docs := d; credentials := credentials σ; faults := faults σ |}.

Definition construct (σ : store) : option exn * store := (credentials σ, σ).

(** Modelled from the spec: [set] replaces the document wholesale. *)
Definition set (coll id : string) (data : record) (σ : store) : option exn * store :=
  match next_fault σ with
  | (Some e, σ') => (Some e, σ')
  | (None, σ') => (None, with_docs σ' (<[(coll, id) := data]> (docs σ')))
  end.

(** Modelled from the spec: [update] merges only the supplied fields onto
    an existing document; there is nothing to merge onto otherwise. *)
Definition update (coll id : string) (data : record) (σ : store) : option exn * store :=
  match next_fault σ with
  | (Some e, σ') => (Some e, σ')
  | (None, σ') =>
      match docs σ' !! (coll, id) with
      | Some old => (None, with_docs σ' (<[(coll, id) := data ∪ old]> (docs σ')))
      | None => (Some (RemoteError "NOT_FOUND"), σ')
      end
  end.

(** Modelled from the spec: [delete] removes the document if present and
    is not an error otherwise. *)
Definition delete (coll id : string) (σ : store) : option exn * store :=
  match next_fault σ with
  | (Some e, σ') => (Some e, σ')
  | (None, σ') => (None, with_docs σ' (base.delete (coll, id) (docs σ')))
  end.

(** Modelled from the spec: [get] answers with the existence flag and the
    fields of the document. *)
Definition get (coll id : string) (σ : store) : (exn + snapshot) * store :=
  match next_fault σ with
  | (Some e, σ') => (inl e, σ')
  | (None, σ') =>
      (inr {| snap_id := id;
              snap_exists := bool_decide (is_Some (docs σ' !! (coll, id)));
              snap_to_dict := docs σ' !! (coll, id) |}, σ')
  end.

(** The store's order on field values of different types: null, then
    booleans, then numbers, then text. *)
Definition value_rank (v : value) : Z :=
  match v with
  | VNone => 0
  | VBool _ => 1
  | VInt _ => 2
  | VStr _ => 3
  end.

Definition value_leb (a b : value) : bool :=
  match a, b with
  | VBool x, VBool y => implb x y
  | VInt x, VInt y => (x <=? y)%Z
  | VStr x, VStr y => String.leb x y
  | _, _ => (value_rank a <=? value_rank b)%Z
  end.

(** [a] may precede [b] in a listing ordered by [field] in direction [dir]. *)
Definition precedes (field : string) (dir : direction) (a b : string * record) : Prop :=
  match dir with
  | ASCENDING => value_leb (dict_get a.2 field) (dict_get b.2 field) = true
  | DESCENDING => value_leb (dict_get b.2 field) (dict_get a.2 field) = true
  end.

#[global] Instance precedes_dec field dir a b : Decision (precedes field dir a b).
Proof. unfold precedes. destruct dir; apply _. Defined.

(** The documents of one collection, as identifier and fields. *)
Definition members (coll : string) (σ : store) : list (string * record) :=
  omap (λ kv : (string * string) * record,
          if decide (kv.1.1 = coll) then Some (kv.1.2, kv.2) else None)
       (map_to_list (docs σ)).

Definition has_field (field : string) (d : string * record) : Prop :=
  is_Some (d.2 !! field).

#[global] Instance has_field_dec field d : Decision (has_field field d).
Proof. unfold has_field. apply _. Defined.

(** Modelled from the spec: the listing of a collection, optionally
    ordered by a field.  An ordered listing holds the documents that have
    the field. *)
Definition listing (coll : string) (order : option (string * direction)) (σ : store)
  : list (string * record) :=
  match order with
  | None => members coll σ
  | Some (field, dir) =>
      merge_sort (precedes field dir) (filter (has_field field) (members coll σ))
  end.

Definition snapshot_of (d : string * record) : snapshot :=
  {| snap_id := d.1; snap_exists := true; snap_to_dict := Some d.2 |}.

Definition stream (coll : string) (order : option (string * direction)) (σ : store)
  : (exn + list snapshot) * store :=
  match next_fault σ with
  | (Some e, σ') => (inl e, σ')
  | (None, σ') => (inr (snapshot_of <$> listing coll order σ'), σ')
  end.

#[global] Instance store_remote : Remote store := {|
  rpc_construct := construct;
  rpc_set := set;
  rpc_update := update;
  rpc_delete := delete;
  rpc_get := get;
  rpc_stream := stream
|}.

(** A world whose library is importable, with an empty trace and log. *)
Definition fresh (σ : store) : world :=
  {| firestore := true; remote := σ; calls := []; log := [] |}.

End MemStore.

(** ** The function surface as one type *)

(** A call of one of the seventeen gateway functions with its arguments. *)
Inductive request :=
| SaveItem (item : record)
| UpdateItem (item_id : value) (data : record)
| DeleteItem (item_id : value)
| GetAllItems
| GetStockOutRecords
| GetStockOutRecord (record_id : string)
| SaveStockOut (record_id : string) (data : record)
| SaveStockIn (record_id : string) (data : record)
| GetStockInRecords
| DeleteStockIn (record_id : string)
| DeleteStockOut (record_id : string)
| GetAllSuppliers
| SaveSupplier (supplier_id : value) (data : record)
| DeleteSupplier (supplier_id : value)
| GetAllWarehouses
| SaveWarehouse (warehouse_id : value) (data : record)
| DeleteWarehouse (warehouse_id : value).

Definition gateway {R} `{!Remote R} (q : request) : py unit :=
  match q with
  | SaveItem item => save_item item
  | UpdateItem item_id data => update_item item_id data
  | DeleteItem item_id => delete_item item_id
  | GetAllItems => get_all_items
  | GetStockOutRecords => get_stock_out_records
  | GetStockOutRecord record_id => get_stock_out_record record_id
  | SaveStockOut record_id data => save_stock_out record_id data
  | SaveStockIn record_id data => save_stock_in record_id data
  | GetStockInRecords => get_stock_in_records
  | DeleteStockIn record_id => delete_stock_in record_id
  | DeleteStockOut record_id => delete_stock_out record_id
  | GetAllSuppliers => get_all_suppliers
  | SaveSupplier supplier_id data => save_supplier supplier_id data
  | DeleteSupplier supplier_id => delete_supplier supplier_id
  | GetAllWarehouses => get_all_warehouses
  | SaveWarehouse warehouse_id data => save_warehouse warehouse_id data
  | DeleteWarehouse warehouse_id => delete_warehouse warehouse_id
  end.

(** The negative result of each function: the empty list for the
    collection-wide reads, [None] for the single-document read, [False]
    for the mutations. *)
Definition negative_result (q : request) : pyobj :=
  match q with
  | GetAllItems | GetStockOutRecords | GetStockInRecords
  | GetAllSuppliers | GetAllWarehouses => OList []
  | GetStockOutRecord _ => ONone
  | _ => OBool false
  end.

(** [str(v)] when it does not raise. *)
Definition text_of (v : value) : option string :=
  match py_str v with
  | inr s => Some s
  | inl _ => None
  end.

(** The five [delete_*] functions, with the collection and the document
    identifier each one addresses, when [str] converts the identifier. *)
Definition is_delete (q : request) : option (string * string) :=
  match q with
  | DeleteItem item_id => pair "items" <$> text_of item_id
  | DeleteStockIn record_id => Some ("stock_in", record_id)
  | DeleteStockOut record_id => Some ("stock_out", record_id)
  | DeleteSupplier supplier_id => pair "suppliers" <$> text_of supplier_id
  | DeleteWarehouse warehouse_id => pair "warehouses" <$> text_of warehouse_id
  | _ => None
  end.

(** The identifiers the store takes for a document, after Firestore's
    constraints on document IDs: not empty, no ["/"], neither ["."] nor
    [".."], not of the form [__.*__], at most 1500 bytes. *)
Definition reserved_name (id : string) : bool :=
  (4 <=? String.length id)%nat && String.prefix "__" id && String.prefix "__" (String.rev id).

Definition document_name (id : string) : bool :=
  negb (String.eqb id "") && (slashes id =? 0)%nat &&
  negb (String.eqb id ".") && negb (String.eqb id "..") &&
  negb (reserved_name id) && (String.length id <=? 1500)%nat.

(** The four collection-wide reads that inject the identifier, with the
    collection and the ordering each one asks the store for. *)
Definition id_injecting_read (q : request) : option (string * option (string * direction)) :=
  match q with
  | GetStockOutRecords => Some ("stock_out", Some ("created_at", DESCENDING))
  | GetStockInRecords => Some ("stock_in", Some ("created_at", DESCENDING))
  | GetAllSuppliers => Some ("suppliers", None)
  | GetAllWarehouses => Some ("warehouses", None)
  | _ => None
  end.

(** [get_client] hands out a client and leaves the library in state [r]. *)
Definition client_available {R} `{!Remote R} (w : world) (r : R) : Prop :=
  invoke get_client w =
    (Value OClient,
     {| firestore := firestore w; remote := r; calls := calls w; log := log w |}).

(** [get_client] returns [None]. *)
Definition client_unavailable {R} `{!Remote R} (w : world) : Prop :=
  (invoke get_client w).1 = Value ONone.

(** The in-memory store serves its next operation: no transport failure is
    scheduled for it. *)
Definition served (σ : MemStore.store) : Prop :=
  (MemStore.next_fault σ).1 = None.

(** [a] is at least as recent as [b]. *)
Definition newer_or_equal (a b : record) : Prop :=
  MemStore.value_leb (dict_get b "created_at") (dict_get a "created_at") = true.

(** Concrete stores for the examples. *)
Definition empty_store : MemStore.store :=
  {| MemStore.docs := ∅; MemStore.credentials := None; MemStore.faults := [] |}.

Definition stock_store : MemStore.store :=
  {| MemStore.docs :=
       list_to_map
         [(("stock_in", "a"), {[ "created_at" := VInt 1; "id" := VStr "stale" ]});
          (("stock_in", "b"), {[ "created_at" := VInt 3 ]});
          (("stock_in", "c"), {[ "created_at" := VInt 2 ]});
          (("stock_out", "x"), {[ "created_at" := VInt 1; "id" := VInt 7 ]});
          (("stock_out", "y"), {[ "created_at" := VInt 3 ]});
          (("stock_out", "z"), {[ "created_at" := VInt 2 ]});
          (("suppliers", "s1"), {[ "name" := VStr "Acme"; "id" := VStr "other" ]})];
     MemStore.credentials := None;
     MemStore.faults := [] |}.

(** A store whose next operation fails in transport. *)
Definition flaky_store : MemStore.store :=
  {| MemStore.docs := ∅;
     MemStore.credentials := None;
     MemStore.faults := [Some (RemoteError "UNAVAILABLE")] |}.

(** A world in which the import of the client library failed. *)
Definition no_library (σ : MemStore.store) : world :=
  {| firestore := false; remote := σ; calls := []; log := [] |}.

(** The operation on one document, when [str] converted the identifier
    and the library accepts the path. *)
Definition on_document (coll : string) (id : option string)
    (op : string → remote_call) : option remote_call :=
  id ≫= λ s, if accepted coll s then Some (op s) else None.

(** The one remote operation each function names: the operation, the
    collection, the document or the ordering, and the data.
    [save_stock_out] names none; a function whose identifier [str] does not
    convert or the library does not accept has none to make. *)
Definition expected_call (q : request) : option remote_call :=
  match q with
  | SaveItem item =>
      on_document "items" (text_of (dict_get item "id")) (λ id, CallSet "items" id item)
  | UpdateItem item_id data =>
      on_document "items" (text_of item_id) (λ id, CallUpdate "items" id data)
  | DeleteItem item_id =>
      on_document "items" (text_of item_id) (λ id, CallDelete "items" id)
  | GetAllItems => Some (CallStream "items" None)
  | GetStockOutRecords => Some (CallStream "stock_out" (Some ("created_at", DESCENDING)))
  | GetStockOutRecord record_id =>
      on_document "stock_out" (Some record_id) (λ id, CallGet "stock_out" id)
  | SaveStockOut _ _ => None
  | SaveStockIn record_id data =>
      on_document "stock_in" (Some record_id) (λ id, CallSet "stock_in" id data)
  | GetStockInRecords => Some (CallStream "stock_in" (Some ("created_at", DESCENDING)))
  | DeleteStockIn record_id =>
      on_document "stock_in" (Some record_id) (λ id, CallDelete "stock_in" id)
  | DeleteStockOut record_id =>
      on_document "stock_out" (Some record_id) (λ id, CallDelete "stock_out" id)
  | GetAllSuppliers => Some (CallStream "suppliers" None)
  | SaveSupplier supplier_id data =>
      on_document "suppliers" (text_of supplier_id) (λ id, CallSet "suppliers" id data)
  | DeleteSupplier supplier_id =>
      on_document "suppliers" (text_of supplier_id) (λ id, CallDelete "suppliers" id)
  | GetAllWarehouses => Some (CallStream "warehouses" None)
  | SaveWarehouse warehouse_id data =>
      on_document "warehouses" (text_of warehouse_id) (λ id, CallSet "warehouses" id data)
  | DeleteWarehouse warehouse_id =>
      on_document "warehouses" (text_of warehouse_id) (λ id, CallDelete "warehouses" id)
  end.

(** A world over the in-memory store in which nothing can fail: the
    library is importable, construction succeeds and no transport failure
    is scheduled. *)
Definition reliable (w : @world MemStore.store) : Prop :=
  firestore w = true ∧
  MemStore.credentials (remote w) = None ∧
  MemStore.faults (remote w) = [].

(** The world after one served operation [c] that left the store in [σ]. *)
Definition after (c : remote_call) (w : @world MemStore.store) (σ : MemStore.store)
  : world :=
  {| firestore := true; remote := σ; calls := calls w ++ [(c, None)]; log := log w |}.

(** The world after a call of [q] from [w]. *)
Definition run {R} `{!Remote R} (q : request) (w : world) : world :=
  (invoke (gateway q) w).2.

(** The value a call of [q] from [w] gives its caller. *)
Definition result {R} `{!Remote R} (q : request) (w : world) : outcome :=
  (invoke (gateway q) w).1.

(** A store for which constructing a client raises. *)
Definition locked_store : MemStore.store :=
  {| MemStore.docs := ∅;
     MemStore.credentials := Some (RemoteError "DefaultCredentialsError");
     MemStore.faults := [] |}.

(** ** Reasoning about blocks *)

(** [d.to_dict() | {"id": d.id}] without the monad. *)
Definition inject_id (d : snapshot) : option pyobj :=
  (λ r, ODict (dict_or r {[ "id" := VStr (snap_id d) ]})) <$> snap_to_dict d.

Section Blocks.
Context {R : Type} `{!Remote R}.
Implicit Types w : @world R.

Lemma py_for_to_dict (ds : list snapshot) w :
  py_for (λ d w', (Normal (to_dict d), w')) ds w = (Normal (to_dict <$> ds), w).
Proof.
  revert w. induction ds as [|d ds IH]; intros w; [done|].
  cbn [py_for]. unfold mbind, py_bind, mret, py_ret in *. by rewrite IH.
Qed.

Lemma with_id_inject (d : snapshot) w :
  with_id d w =
    match inject_id d with
    | Some o => (Normal o, w)
    | None => (Raised (TypeError "unsupported operand type(s) for |: 'NoneType' and 'dict'"), w)
    end.
Proof. unfold with_id, inject_id. by destruct (snap_to_dict d). Qed.

Lemma py_for_with_id (ds : list snapshot) w :
  py_for with_id ds w =
    match mapM inject_id ds with
    | Some l => (Normal l, w)
    | None => (Raised (TypeError "unsupported operand type(s) for |: 'NoneType' and 'dict'"), w)
    end.
Proof.
  revert w. induction ds as [|d ds IH]; intros w; [done|].
  cbn [py_for mapM]. unfold mbind at 1, py_bind at 1.
  rewrite with_id_inject.
  destruct (inject_id d) as [o|]; [|done].
  unfold mbind at 1, py_bind at 1. rewrite IH. cbn.
  by destruct (mapM inject_id ds).
Qed.

(** What a call of [get_client] returns and leaves behind. *)
Lemma invoke_get_client w :
  invoke get_client w =
    if firestore w then
      match rpc_construct (remote w) with
      | (None, r) =>
          (Value OClient,
           {| firestore := firestore w; remote := r; calls := calls w; log := log w |})
      | (Some e, r) =>
          (Value ONone,
           {| firestore := firestore w; remote := r; calls := calls w;
              log := log w ++ [LogEntry EXCEPTION "Failed to create Firestore client: %s"
                                        [ArgExn e]] |})
      end
    else
      (Value ONone,
       {| firestore := firestore w; remote := remote w; calls := calls w;
          log := log w ++ [LogEntry WARNING "google-cloud-firestore not installed" []] |}).
Proof.
  unfold invoke, get_client, firestore_is_none, try_except, firestore_Client, py_if,
    logger_warning, logger_exception, emit, py_return, mbind, py_bind.
  destruct (firestore w) eqn:Hfs; cbn; rewrite ?Hfs; [|done].
  destruct (rpc_construct (remote w)) as [[e|] r]; cbn; by rewrite ?Hfs.
Qed.

End Blocks.

(** Unfolds a gateway function down to the library operations, with the
    call of [get_client] replaced by its result. *)
Ltac py_names :=
  unfold gateway, save_item, update_item, delete_item,
    get_all_items, get_stock_out_records, get_stock_out_record, save_stock_out,
    save_stock_in, get_stock_in_records, delete_stock_in, delete_stock_in_head,
    delete_stock_out, get_all_suppliers, save_supplier, delete_supplier,
    get_all_warehouses, save_warehouse, delete_warehouse.

Ltac py_body :=
  unfold mbind, py_bind, call; cbv beta;
  rewrite ?invoke_get_client;
  unfold try_except, py_if, py_return, unbound_name,
    collection, document, str_of, py_raise, doc_set, doc_update, doc_delete, doc_get, stream,
    remote_op, lift_unit, logger_warning, logger_error, logger_exception, emit,
    mbind, py_bind, mret, py_ret.

Ltac py_unfold := py_names; unfold invoke at 1; py_body.

(** Splits on whatever the library does. *)
Ltac py_trace :=
  first [ reflexivity | symmetry; apply app_nil_r ].


Ltac py_reduce :=
  cbn [fst snd is_none negb firestore remote calls log all_documents
       order_by doc_coll doc_id coll_name q_coll q_order];
  rewrite ?py_for_with_id, ?py_for_to_dict, ?with_id_inject.

Ltac py_step :=
  match goal with
  | |- context [firestore ?w] => is_var w; destruct (firestore w) eqn:?
  | |- context [rpc_construct ?r] => destruct (rpc_construct r) as [[?|] ?] eqn:?
  | |- context [py_str ?v] => destruct (py_str v) as [?|?] eqn:?
  | |- context [str_truthy ?s] => destruct (str_truthy s) eqn:?
  | |- context [accepted ?c ?i] => destruct (accepted c i) eqn:?
  | |- context [rpc_set ?c ?i ?d ?r] => destruct (rpc_set c i d r) as [[?|] ?] eqn:?
  | |- context [rpc_update ?c ?i ?d ?r] => destruct (rpc_update c i d r) as [[?|] ?] eqn:?
  | |- context [rpc_delete ?c ?i ?r] => destruct (rpc_delete c i r) as [[?|] ?] eqn:?
  | |- context [rpc_get ?c ?i ?r] => destruct (rpc_get c i r) as [[?|?] ?] eqn:?
  | |- context [rpc_stream ?c ?o ?r] => destruct (rpc_stream c o r) as [[?|?] ?] eqn:?
  | |- context [snap_exists ?d] => destruct (snap_exists d) eqn:?
  | |- context [mapM inject_id ?l] => destruct (mapM inject_id l) eqn:?
  | |- context [inject_id ?d] => destruct (inject_id d) eqn:?
  end.

Ltac py_cases := py_reduce; repeat (py_step; py_reduce).

(** ** The client accessor *)

Section Accessor.
Context {R : Type} `{!Remote R}.
Implicit Types w : @world R.

Lemma client_available_iff w r :
  client_available w r ↔ firestore w = true ∧ rpc_construct (remote w) = (None, r).
Proof.
  unfold client_available. rewrite invoke_get_client.
  destruct (firestore w); [|split; [done|by intros [? _]]].
  destruct (rpc_construct (remote w)) as [[e|] r0].
  - split; [done|]. by intros [_ ?].
  - split; [intros; simplify_eq; done|]. intros [_ ?]. by simplify_eq.
Qed.

Lemma client_unavailable_iff w :
  client_unavailable w ↔
    firestore w = false ∨ ∃ e r, rpc_construct (remote w) = (Some e, r).
Proof.
  unfold client_unavailable. rewrite invoke_get_client.
  destruct (firestore w); [|split; [by left|done]].
  destruct (rpc_construct (remote w)) as [[e|] r]; cbn.
  - split; [|done]. right. eauto.
  - split; [done|]. intros [?|(? & ? & ?)]; done.
Qed.

End Accessor.

(** Replaces the availability hypotheses by what they say about the world. *)
Ltac py_client :=
  repeat match goal with
         | H : client_available _ _ |- _ => apply client_available_iff in H; destruct H
         | H : client_unavailable _ |- _ =>
             apply client_unavailable_iff in H; destruct H as [?|(? & ? & ?)]
         end.

(** Two answers of the library to the same question are the same answer. *)
Ltac py_clash :=
  repeat match goal with
         | H1 : ?x = _, H2 : ?x = _ |- _ => rewrite H1 in H2; simplify_eq
         end.

(** Rewrites with what is known about the library before splitting. *)
Ltac py_known :=
  repeat match goal with
         | H : firestore _ = _ |- _ => rewrite H
         | H : py_str _ = _ |- _ => rewrite H
         | H : accepted _ _ = _ |- _ => rewrite H
         | H : str_truthy _ = _ |- _ => rewrite H
         | H : rpc_construct _ = _ |- _ => rewrite H
         | H : rpc_set _ _ _ _ = _ |- _ => rewrite H
         | H : rpc_delete _ _ _ = _ |- _ => rewrite H
         | H : rpc_get _ _ _ = _ |- _ => rewrite H
         | H : rpc_stream _ _ _ = _ |- _ => rewrite H
         | H : snap_exists _ = _ |- _ => rewrite H
         end.

(** ** Failures and the caller *)

(** C3.  [save_item] converts the identifier with [str] before its [try]
    block.  For a record whose [id] is an integer beyond the digit limit
    of [str], with a client, the [ValueError] of the conversion leaves the
    function: the caller receives the exception, nothing is logged and no
    remote operation is attempted. *)
Theorem save_item_huge_id_escapes :
  invoke (save_item {[ "id" := VInt (10 ^ 4300) ]}) (MemStore.fresh empty_store) =
    (Escaped (ValueError "Exceeds the limit (4300 digits) for integer string conversion"),
     MemStore.fresh empty_store).
Proof. vm_compute. reflexivity. Qed.

(** C4.  When [get_client] returns [None], every gateway function returns
    its negative result and the trace of remote operations is unchanged. *)
Theorem unavailable_client_negative {R} `{!Remote R} (w : world) (q : request) :
  client_unavailable w →
  ∃ w', invoke (gateway q) w = (Value (negative_result q), w') ∧ calls w' = calls w.
Proof.
  intros Hc. py_client.
  - destruct q; py_unfold; py_known; py_cases; by eexists.
  - destruct q; py_unfold; py_known; py_cases; by eexists.
Qed.

Lemma unavailable_client_negative_witness :
  client_unavailable (no_library empty_store) ∧
  ∃ w', invoke (gateway (GetStockOutRecord "SO-1")) (no_library empty_store) =
          (Value ONone, w') ∧ calls w' = [].
Proof.
  split; [reflexivity|].
  apply (unavailable_client_negative (no_library empty_store) (GetStockOutRecord "SO-1")).
  reflexivity.
Defined.

(** ** [save_item] and the missing identifier *)

(** The guard of [save_item] fires for the empty text: nothing is sent,
    an error is logged and the result is [False]. *)
Lemma save_item_empty_id {R} `{!Remote R} (w : world) (r : R) (item : record) :
  item !! "id" = Some (VStr "") →
  client_available w r →
  invoke (save_item item) w =
    (Value (OBool false),
     {| firestore := firestore w; remote := r; calls := calls w;
        log := log w ++ [LogEntry ERROR "Item missing id: %s" [ArgRecord item]] |}).
Proof.
  intros Hid Hc.
  assert (py_str (dict_get item "id") = inr "") as Hstr.
  { unfold dict_get. by rewrite Hid. }
  py_client. py_unfold. rewrite Hstr. cbn [str_truthy].
  py_known. py_reduce. by py_known.
Qed.

(** C9.  For a record whose [id] is missing or [None], the document
    identifier is the text ["None"], which is truthy; with a client,
    [save_item] attempts exactly one remote operation, the [set] of the
    record under ["None"] in [items], and returns [True] exactly when that
    operation did not raise. *)
Theorem save_item_without_id {R} `{!Remote R} (w : world) (r : R) (item : record) :
  item !! "id" = None ∨ item !! "id" = Some VNone →
  client_available w r →
  py_str (dict_get item "id") = inr "None" ∧
  str_truthy "None" = true ∧
  ∃ res r' w',
    rpc_set "items" "None" item r = (res, r') ∧
    invoke (save_item item) w = (Value (OBool (bool_decide (res = None))), w') ∧
    remote w' = r' ∧
    calls w' = calls w ++ [(CallSet "items" "None" item, res)].
Proof.
  intros Hid Hc.
  assert (dict_get item "id" = VNone) as Hget.
  { unfold dict_get. by destruct Hid as [-> | ->]. }
  rewrite Hget. do 2 (split; [done|]).
  py_client. py_unfold. rewrite Hget. cbn [py_str str_truthy].
  py_known. py_reduce. change (accepted "items" "None") with true. py_reduce.
  destruct (rpc_set "items" "None" item r) as [[e|] r'] eqn:Hset; by eexists _, _, _.
Qed.

Lemma save_item_without_id_witness :
  ∃ res r' w',
    rpc_set "items" "None" {[ "name" := VStr "bolt" ]} empty_store = (res, r') ∧
    invoke (save_item {[ "name" := VStr "bolt" ]}) (MemStore.fresh empty_store) =
      (Value (OBool (bool_decide (res = None))), w') ∧
    remote w' = r' ∧
    calls w' = [] ++ [(CallSet "items" "None" {[ "name" := VStr "bolt" ]}, res)].
Proof.
  apply (save_item_without_id (MemStore.fresh empty_store) empty_store
           {[ "name" := VStr "bolt" ]}).
  - left. reflexivity.
  - reflexivity.
Defined.

(** C1.  [save_item] on a record without an [id], with a client: the
    record is written under the identifier ["None"], nothing is logged and
    the result is [True]. *)
Theorem save_item_missing_id_is_saved :
  invoke (save_item ∅) (MemStore.fresh empty_store) =
    (Value (OBool true),
     {| firestore := true;
        remote := {| MemStore.docs := {[ ("items", "None") := ∅ ]};
                     MemStore.credentials := None;
                     MemStore.faults := [] |};
        calls := [(CallSet "items" "None" ∅, None)];
        log := [] |}).
Proof. vm_compute. reflexivity. Qed.

(** ** [save_stock_out] *)

(** [save_stock_out] never reaches the store, and returns [None] unless the
    client is unavailable. *)
Lemma save_stock_out_never_writes {R} `{!Remote R} (w : world)
    (record_id : string) (data : record) :
  ∃ v w', invoke (save_stock_out record_id data) w = (Value v, w') ∧
          calls w' = calls w ∧
          v = match (invoke get_client w).1 with
              | Value OClient => ONone
              | _ => OBool false
              end.
Proof.
  rewrite invoke_get_client. py_unfold. py_cases; by eexists _, _.
Qed.

(** C2.  [save_stock_out] with a client: no remote operation is attempted
    and the caller receives [None], neither [True] nor [False]. *)
Theorem save_stock_out_returns_none :
  invoke (save_stock_out "SO-1" {[ "qty" := VInt 5 ]}) (MemStore.fresh empty_store) =
    (Value ONone, MemStore.fresh empty_store).
Proof. vm_compute. reflexivity. Qed.

(** ** [delete_stock_in] *)

(** C10.  The second [try] block of [delete_stock_in] is never entered:
    the function behaves as its first block alone, it attempts at most one
    remote operation, the [delete] of the document in [stock_in], and it
    returns a boolean. *)
Theorem delete_stock_in_tail_unreachable {R} `{!Remote R} (w : world) (record_id : string) :
  invoke (delete_stock_in record_id) w = invoke (delete_stock_in_head record_id) w ∧
  ∃ b w' new,
    invoke (delete_stock_in record_id) w = (Value (OBool b), w') ∧
    calls w' = calls w ++ new ∧
    (new = [] ∨ ∃ res, new = [(CallDelete "stock_in" record_id, res)]).
Proof.
  split.
  - py_names. unfold invoke at 1 2. py_body. py_cases; reflexivity.
  - py_unfold. py_cases.
    all: eexists _, _, _; split; [reflexivity|]; cbn.
    all: split; [py_trace|]; eauto.
Qed.
(** ** Reads *)

(** [a | {"id": v}] overwrites the [id] key of [a] and nothing else. *)
Lemma dict_or_id (a : record) (v : value) :
  dict_or a {[ "id" := v ]} = <["id" := v]> a.
Proof. unfold dict_or. by rewrite insert_union_singleton_l. Qed.

Lemma mapM_inject_id (ds : list snapshot) (fields : list record) :
  Forall2 (λ d r, snap_to_dict d = Some r) ds fields →
  mapM inject_id ds =
    Some (zip_with (λ d r, ODict (<["id" := VStr (snap_id d)]> r)) ds fields).
Proof.
  induction 1 as [|d r ds fields Hd _ IH]; [done|].
  assert (inject_id d = Some (ODict (<["id" := VStr (snap_id d)]> r))) as Hin.
  { unfold inject_id. rewrite Hd. cbn. by rewrite dict_or_id. }
  cbn [mapM zip_with]. by rewrite Hin, IH.
Qed.

(** C5.  A collection-wide read of [stock_in], [stock_out], [suppliers] or
    [warehouses] that succeeds returns one record per document, in the
    order of the listing; each record carries the document identifier
    under [id], whatever [id] the document stored, and the stored value
    under every other key. *)
Theorem listed_records_carry_identifier {R} `{!Remote R} (w : world) (q : request)
    (coll : string) (order : option (string * direction)) (r r' : R)
    (ds : list snapshot) (fields : list record) :
  id_injecting_read q = Some (coll, order) →
  client_available w r →
  rpc_stream coll order r = (inr ds, r') →
  Forall2 (λ d stored, snap_to_dict d = Some stored) ds fields →
  ∃ rs,
    (invoke (gateway q) w).1 = Value (OList (ODict <$> rs)) ∧
    Forall2 (λ d rec, rec !! "id" = Some (VStr (snap_id d))) ds rs ∧
    Forall2 (λ stored rec, ∀ k, k ≠ "id" → rec !! k = stored !! k) fields rs.
Proof.
  intros Hq Hc Hs Hds. py_client.
  exists (zip_with (λ d stored, <["id" := VStr (snap_id d)]> stored) ds fields).
  split; [|split].
  - destruct q; simplify_eq/=.
    all: py_unfold; py_known; py_reduce; py_known; py_reduce.
    all: rewrite (mapM_inject_id ds fields Hds); cbn [fst].
    all: do 2 f_equal.
    all: clear; revert fields; induction ds as [|d ds IH]; intros [|f fs]; cbn; f_equal; auto.
  - clear -Hds. induction Hds; constructor; [apply lookup_insert_eq|done].
  - clear -Hds. induction Hds; constructor; [|done].
    intros k Hk. by apply lookup_insert_ne.
Qed.

Lemma listed_records_carry_identifier_witness :
  ∃ rs : list record,
    (invoke (gateway GetAllSuppliers) (MemStore.fresh stock_store)).1 =
      Value (OList (ODict <$> rs)) ∧
    Forall2 (λ d rec, rec !! "id" = Some (VStr (snap_id d)))
      [Snapshot "s1" true (Some {[ "name" := VStr "Acme"; "id" := VStr "other" ]})] rs ∧
    Forall2 (λ stored rec : record, ∀ k, k ≠ "id" → rec !! k = stored !! k)
      [ {[ "name" := VStr "Acme"; "id" := VStr "other" ]} ] rs.
Proof.
  apply (listed_records_carry_identifier (MemStore.fresh stock_store) GetAllSuppliers
           "suppliers" None stock_store stock_store).
  - reflexivity.
  - reflexivity.
  - vm_compute. reflexivity.
  - repeat constructor.
Defined.



(** ** The in-memory store *)

Module MemStoreFacts.
Import MemStore.

Lemma ascii_compare_refl (x : Ascii.ascii) : Ascii.compare x x = Eq.
Proof. unfold Ascii.compare. apply N.compare_refl. Qed.

Lemma ascii_compare_lt_trans (x y z : Ascii.ascii) :
  Ascii.compare x y = Lt → Ascii.compare y z = Lt → Ascii.compare x z = Lt.
Proof. unfold Ascii.compare. rewrite !N.compare_lt_iff. lia. Qed.

Lemma string_compare_le_trans (a b c : string) :
  String.compare a b ≠ Gt → String.compare b c ≠ Gt → String.compare a c ≠ Gt.
Proof.
  revert b c. induction a as [|x a IH]; intros [|y b] [|z c]; simpl; try done.
  destruct (Ascii.compare x y) eqn:Hxy; try done;
    destruct (Ascii.compare y z) eqn:Hyz; try done.
  - apply Ascii.compare_eq_iff in Hxy, Hyz. subst. rewrite ascii_compare_refl. apply IH.
  - apply Ascii.compare_eq_iff in Hxy. subst. by rewrite Hyz.
  - apply Ascii.compare_eq_iff in Hyz. subst. by rewrite Hxy.
  - by rewrite (ascii_compare_lt_trans _ _ _ Hxy Hyz).
Qed.

Lemma string_leb_trans (a b c : string) :
  String.leb a b = true → String.leb b c = true → String.leb a c = true.
Proof.
  unfold String.leb. intros Hab Hbc.
  pose proof (string_compare_le_trans a b c) as Ht.
  destruct (String.compare a b), (String.compare b c), (String.compare a c);
    try done; exfalso; by apply Ht.
Qed.

Lemma value_leb_total (a b : value) : value_leb a b = true ∨ value_leb b a = true.
Proof.
  destruct a as [|[]|x|s], b as [|[]|y|t]; cbn; auto.
  - destruct (Z.leb_spec x y); [auto|right; lia].
  - apply String.leb_total.
Qed.

Lemma value_leb_trans (a b c : value) :
  value_leb a b = true → value_leb b c = true → value_leb a c = true.
Proof.
  destruct a as [|[]|x|s], b as [|[]|y|t], c as [|[]|z|u]; cbn; try done.
  - lia.
  - apply string_leb_trans.
Qed.

#[global] Instance precedes_total field dir : Total (precedes field dir).
Proof. intros a b. unfold precedes. destruct dir; apply value_leb_total. Qed.

#[global] Instance precedes_trans field dir : Transitive (precedes field dir).
Proof.
  intros a b c. unfold precedes. destruct dir; eauto using value_leb_trans.
Qed.

Lemma next_fault_served (σ : store) :
  served σ → ∃ σ', next_fault σ = (None, σ') ∧ docs σ' = docs σ.
Proof.
  unfold served, next_fault. destruct (faults σ) as [|[e|] fs]; cbn; try done; eauto.
Qed.

Lemma members_docs (coll : string) (σ σ' : store) :
  docs σ' = docs σ → members coll σ' = members coll σ.
Proof. unfold members. by intros ->. Qed.

Lemma mapM_inject_snapshots (l : list (string * record)) :
  mapM inject_id (snapshot_of <$> l) =
    Some ((λ d, ODict (<["id" := VStr d.1]> d.2)) <$> l).
Proof.
  induction l as [|d l IH]; [done|].
  cbn [fmap list_fmap mapM]. change (list_fmap _ _ snapshot_of l) with (snapshot_of <$> l).
  rewrite IH. unfold inject_id, snapshot_of. cbn. by rewrite dict_or_id.
Qed.

End MemStoreFacts.

Import MemStore MemStoreFacts.

(** C6.  On the in-memory store, with a client and a served request,
    [get_stock_in_records] and [get_stock_out_records] return the
    documents of their collection that have a [created_at] field, each
    with its identifier injected, ordered by [created_at] from the most
    recent to the oldest. *)
Theorem stock_records_newest_first (w : world) (σ : store) (q : request) (coll : string) :
  (q = GetStockInRecords ∧ coll = "stock_in") ∨
  (q = GetStockOutRecords ∧ coll = "stock_out") →
  client_available w σ →
  served σ →
  ∃ rs : list record,
    (invoke (gateway q) w).1 = Value (OList (ODict <$> rs)) ∧
    StronglySorted newer_or_equal rs ∧
    rs ≡ₚ (λ d, <["id" := VStr d.1]> d.2)
            <$> filter (has_field "created_at") (members coll σ).
Proof.
  intros Hq Hc Hs. py_client.
  destruct (next_fault_served σ Hs) as (σ' & Hnext & Hdocs).
  set (l := merge_sort (precedes "created_at" DESCENDING)
              (filter (has_field "created_at") (members coll σ))).
  exists ((λ d, <["id" := VStr d.1]> d.2) <$> l). split; [|split].
  - destruct Hq as [[-> ->]|[-> ->]].
    all: py_unfold; py_known; py_reduce.
    all: cbn [rpc_stream store_remote]; unfold MemStore.stream; rewrite Hnext.
    all: cbn [listing]; rewrite (members_docs _ _ _ Hdocs); fold l.
    all: py_reduce; rewrite mapM_inject_snapshots; cbn [fst].
    all: by rewrite <-list_fmap_compose.
  - apply (StronglySorted_fmap _ (precedes "created_at" DESCENDING)).
    + intros x y Hxy. unfold newer_or_equal, precedes, dict_get in *.
      by rewrite !lookup_insert_ne.
    + apply StronglySorted_merge_sort; apply _.
  - subst l. by rewrite merge_sort_Permutation.
Qed.

Lemma stock_records_newest_first_witness :
  ∃ rs : list record,
    (invoke get_stock_in_records (fresh stock_store)).1 = Value (OList (ODict <$> rs)) ∧
    StronglySorted newer_or_equal rs ∧
    rs ≡ₚ (λ d, <["id" := VStr d.1]> d.2)
            <$> filter (has_field "created_at") (members "stock_in" stock_store).
Proof.
  apply (stock_records_newest_first (fresh stock_store) stock_store GetStockInRecords).
  - left. split; reflexivity.
  - reflexivity.
  - reflexivity.
Defined.

(** The illustration of the ordering: documents created at 1, 3 and 2 come
    back as 3, 2, 1, and the identifier replaces the stored [id]. *)
Example stock_in_records_1_3_2 :
  (invoke get_stock_in_records (fresh stock_store)).1 =
    Value (OList [ODict {[ "created_at" := VInt 3; "id" := VStr "b" ]};
                  ODict {[ "created_at" := VInt 2; "id" := VStr "c" ]};
                  ODict {[ "created_at" := VInt 1; "id" := VStr "a" ]}]).
Proof. vm_compute. reflexivity. Qed.

Example stock_out_records_1_3_2 :
  (invoke get_stock_out_records (fresh stock_store)).1 =
    Value (OList [ODict {[ "created_at" := VInt 3; "id" := VStr "y" ]};
                  ODict {[ "created_at" := VInt 2; "id" := VStr "z" ]};
                  ODict {[ "created_at" := VInt 1; "id" := VStr "x" ]}]).
Proof. vm_compute. reflexivity. Qed.

Lemma document_name_accepted (coll id : string) :
  slashes coll = 0 → document_name id = true → accepted coll id = true.
Proof.
  intros Hc Hn. unfold accepted, path_elements. rewrite Hc.
  unfold document_name in Hn. rewrite !andb_true_iff in Hn.
  destruct Hn as [[[[[_ Hs] _] _] _] _]. apply Nat.eqb_eq in Hs. by rewrite Hs.
Qed.




(** ** Further properties of the module *)

Lemma snoc_ne {A} (l : list A) (x : A) : l ++ [x] ≠ l.
Proof.
  intros Heq. apply (f_equal length) in Heq. rewrite length_app in Heq.
  cbn in Heq. lia.
Qed.

(** Names the outcome and the world of the call in the goal, unfolds the
    function and splits on what the library does. *)
Ltac py_run q w :=
  unfold run, result;
  let o := fresh "o" in
  let w' := fresh "w'" in
  let Hrun := fresh "Hrun" in
  destruct (invoke (gateway q) w) as [o w'] eqn:Hrun; revert Hrun;
  destruct q; py_unfold; py_cases; intros Hrun; simplify_eq.

(** X1.  Whatever the client library does, a call of a gateway function
    attempts at most one remote operation, and it is the operation the
    function names: its own collection, document or ordering, and data.
    With a client, an identifier that [str] converts and the library
    accepts as a document path (and, for [save_item], an identifier text
    that is not empty), every function but [save_stock_out] attempts it
    exactly once. *)
Theorem at_most_one_named_operation {R} `{!Remote R} (w : world) (q : request) :
  ∃ new,
    calls (run q w) = calls w ++ new ∧
    (new = [] ∨ ∃ c res, expected_call q = Some c ∧ new = [(c, res)]) ∧
    (∀ r c, client_available w r →
            expected_call q = Some c →
            (∀ item, q = SaveItem item → py_str (dict_get item "id") ≠ inr "") →
            ∃ res, new = [(c, res)]).
Proof.
  unfold run. destruct q; py_unfold; py_cases.
  all: cbn [snd calls expected_call]; unfold on_document, text_of.
  all: repeat (progress (py_known; cbn [mbind option_bind])).
  all: eexists; split; [py_trace|].
  all: split; [eauto|].
  all: intros r1 c1 Hc Hq Hguard; py_client; py_clash; simplify_eq; eauto.
  all: specialize (Hguard _ eq_refl).
  all: match goal with
       | Ht : str_truthy ?s = false |- _ => destruct s; [done|discriminate Ht]
       end.
Qed.

Lemma at_most_one_named_operation_witness :
  ∃ res, calls (run (DeleteStockIn "SI-1") (MemStore.fresh flaky_store)) =
           [] ++ [(CallDelete "stock_in" "SI-1", res)].
Proof.
  destruct (at_most_one_named_operation (MemStore.fresh flaky_store) (DeleteStockIn "SI-1"))
    as (new & Hcalls & _ & Hone).
  destruct (Hone flaky_store (CallDelete "stock_in" "SI-1")) as [res ->];
    [reflexivity | reflexivity | discriminate |].
  exists res. exact Hcalls.
Defined.

(** X2.  A mutation returns [True] exactly when its one remote operation
    was attempted and did not raise, whatever the client library does. *)
Theorem mutation_true_iff_write_succeeded {R} `{!Remote R} (w : world) (q : request) :
  negative_result q = OBool false →
  ∃ new,
    calls (run q w) = calls w ++ new ∧
    (result q w = Value (OBool true) ↔ ∃ c, new = [(c, None)]).
Proof.
  intros Hq. py_run q w; try discriminate Hq.
  all: cbn [fst snd calls]; eexists; split; [py_trace|].
  all: split; [intros; simplify_eq; eauto|intros [c Hc]; by simplify_eq].
Qed.

Lemma mutation_true_iff_write_succeeded_witness :
  result (SaveSupplier (VInt 7) ∅) (MemStore.fresh empty_store) = Value (OBool true).
Proof.
  destruct (mutation_true_iff_write_succeeded (MemStore.fresh empty_store)
              (SaveSupplier (VInt 7) ∅) eq_refl) as (new & Hcalls & Hiff).
  apply Hiff. exists (CallSet "suppliers" "7" ∅).
  vm_compute in Hcalls. by simplify_eq.
Defined.

(** X3.  A call writes at most one record to the log, and a mutation
    returns [False] exactly when it wrote one: success is silent and every
    [False] is explained in the log. *)
Theorem false_iff_logged {R} `{!Remote R} (w : world) (q : request) :
  (log (run q w) = log w ∨ ∃ entry, log (run q w) = log w ++ [entry]) ∧
  (negative_result q = OBool false →
   (result q w = Value (OBool false) ↔ log (run q w) ≠ log w)).
Proof.
  py_run q w.
  all: cbn [fst snd log negative_result]; split; [eauto|].
  all: intros Hq; try discriminate Hq.
  all: split; [intros; simplify_eq; try apply snoc_ne|intros Hne; try done].
Qed.

(** X4.  [get_all_items] returns what the documents hold, in the order of
    the listing and without injecting the identifier: the [id] of a
    returned record is the stored field, if there is one. *)
Theorem get_all_items_as_stored {R} `{!Remote R} (w : world) (r r' : R)
    (ds : list snapshot) :
  client_available w r →
  rpc_stream "items" None r = (inr ds, r') →
  result GetAllItems w = Value (OList (to_dict <$> ds)).
Proof.
  intros Hc Hs. py_client. unfold result. py_unfold. py_known. py_reduce.
  by py_known; py_reduce.
Qed.

Lemma get_all_items_as_stored_witness :
  result GetAllItems
    (MemStore.fresh (MemStore.with_docs empty_store
                       {[ ("items", "7") := {[ "name" := VStr "bolt" ]} ]})) =
    Value (OList [ODict {[ "name" := VStr "bolt" ]}]).
Proof.
  apply (get_all_items_as_stored _
           (MemStore.with_docs empty_store {[ ("items", "7") := {[ "name" := VStr "bolt" ]} ]})
           (MemStore.with_docs empty_store {[ ("items", "7") := {[ "name" := VStr "bolt" ]} ]})
           [Snapshot "7" true (Some {[ "name" := VStr "bolt" ]})]).
  - reflexivity.
  - vm_compute. reflexivity.
Defined.

(** [str] of an integer has at least one digit. *)
Lemma pretty_N_go_nonempty (x : N) (s : string) : s ≠ "" → pretty_N_go x s ≠ "".
Proof.
  revert s. induction (N.lt_wf_0 x) as [x _ IH]; intros s Hs.
  destruct (decide (x = 0)%N) as [->|Hx]; [by rewrite pretty_N_go_0|].
  rewrite pretty_N_go_step by lia. apply IH; [|done].
  apply N.div_lt; lia.
Qed.

Lemma pretty_N_nonempty (x : N) : pretty x ≠ "".
Proof.
  unfold pretty, pretty_N. destruct (decide (x = 0)%N); [done|].
  rewrite pretty_N_go_step by lia. by apply pretty_N_go_nonempty.
Qed.

Lemma py_str_empty (v : value) : py_str v = inr "" ↔ v = VStr "".
Proof.
  split; [|by intros ->].
  destruct v as [|[]|z|s]; cbn; try done.
  - destruct (Z.abs z <? str_digits_bound)%Z; [|done].
    intros Hz. simplify_eq. destruct z as [|p|p]; try done.
    by apply pretty_N_nonempty in Hz.
  - by intros [= ->].
Qed.

Lemma str_truthy_false (s : string) : str_truthy s = false ↔ s = "".
Proof. by destruct s. Qed.

Lemma stored_empty_text (item : record) :
  py_str (dict_get item "id") = inr "" ↔ item !! "id" = Some (VStr "").
Proof.
  rewrite py_str_empty. unfold dict_get.
  destruct (item !! "id") as [v|]; cbn; [|done]. split; congruence.
Qed.

(** X5.  With a client, the guard of [save_item] fires (the error ["Item
    missing id"] is logged) exactly when the record stores the empty text
    under [id]: a missing [id], [None], [False] and [0] do not trigger it.
    And [save_item] attempts no remote operation exactly when the guard
    fires, or [str] refuses the identifier, or the library refuses its
    text as a document path. *)
Theorem save_item_guard_only_empty_text {R} `{!Remote R} (w : world) (r : R)
    (item : record) :
  client_available w r →
  (log (run (SaveItem item) w) =
     log w ++ [LogEntry ERROR "Item missing id: %s" [ArgRecord item]] ↔
   item !! "id" = Some (VStr "")) ∧
  (calls (run (SaveItem item) w) = calls w ↔
   item !! "id" = Some (VStr "") ∨
   (∃ e, py_str (dict_get item "id") = inl e) ∨
   (∃ s, py_str (dict_get item "id") = inr s ∧ accepted "items" s = false)).
Proof.
  intros Hc. py_client. rewrite <-stored_empty_text. unfold run.
  destruct (invoke (gateway (SaveItem item)) w) as [o w'] eqn:Hrun. revert Hrun.
  py_unfold. py_known. py_reduce. py_known.
  destruct (py_str (dict_get item "id")) as [e|s] eqn:Hstr; py_reduce.
  { intros Hrun. simplify_eq. cbn [snd calls log]. split.
    - split; [|done]. intros Hl. symmetry in Hl. by apply snoc_ne in Hl.
    - split; [eauto|done]. }
  destruct (str_truthy s) eqn:Ht; py_reduce.
  2: { intros Hrun. simplify_eq. cbn [snd calls log].
       apply str_truthy_false in Ht as ->. split; split; auto. }
  assert (s ≠ "") as Hs by (by intros ->).
  destruct (accepted "items" s) eqn:Hacc; py_reduce.
  2: { intros Hrun. simplify_eq. cbn [snd calls log]. split.
       - split; [|congruence]. intros Hl. apply app_inv_head in Hl. discriminate Hl.
       - split; [eauto|done]. }
  py_cases; intros Hrun; simplify_eq; cbn [snd calls log].
  all: split; split; try congruence.
  all: try (intros Hl; apply app_inv_head in Hl; discriminate Hl).
  all: try (intros Hl; symmetry in Hl; by apply snoc_ne in Hl).
  all: try (intros Hl; by apply snoc_ne in Hl).
  all: intros [?|[[? ?]|(? & ? & ?)]]; congruence.
Qed.

Lemma save_item_guard_only_empty_text_witness :
  calls (run (SaveItem {[ "id" := VStr "" ]}) (MemStore.fresh empty_store)) = [] ∧
  log (run (SaveItem {[ "id" := VStr "" ]}) (MemStore.fresh empty_store)) =
    [] ++ [LogEntry ERROR "Item missing id: %s" [ArgRecord {[ "id" := VStr "" ]}]].
Proof.
  assert (client_available (MemStore.fresh empty_store) empty_store) as Hc
    by reflexivity.
  destruct (save_item_guard_only_empty_text (MemStore.fresh empty_store) empty_store
              {[ "id" := VStr "" ]} Hc) as [Hguard Hskip].
  split.
  - apply Hskip. by left.
  - by apply Hguard.
Defined.

(** X6.  When the import of the client library failed, every function
    returns its negative result at once: no client is constructed, the
    library state is untouched, and the one record logged is the warning
    that the library is not installed. *)
Theorem missing_library_short_circuit {R} `{!Remote R} (w : world) (q : request) :
  firestore w = false →
  invoke (gateway q) w =
    (Value (negative_result q),
     {| firestore := false; remote := remote w; calls := calls w;
        log := log w ++ [LogEntry WARNING "google-cloud-firestore not installed" []] |}).
Proof.
  intros Hfs. destruct q; py_unfold; by py_known; py_reduce.
Qed.

Lemma missing_library_short_circuit_witness :
  invoke (gateway (SaveStockOut "SO-1" ∅)) (no_library flaky_store) =
    (Value (OBool false),
     {| firestore := false; remote := flaky_store; calls := [];
        log := [] ++ [LogEntry WARNING "google-cloud-firestore not installed" []] |}).
Proof.
  apply (missing_library_short_circuit (no_library flaky_store) (SaveStockOut "SO-1" ∅)).
  reflexivity.
Defined.

(** X7.  When constructing the client raises, every function returns its
    negative result without any remote operation, and the one record
    logged carries the exception that construction raised. *)
Theorem construction_failure_reported {R} `{!Remote R} (w : world) (q : request)
    (e : exn) (r : R) :
  firestore w = true →
  rpc_construct (remote w) = (Some e, r) →
  invoke (gateway q) w =
    (Value (negative_result q),
     {| firestore := true; remote := r; calls := calls w;
        log := log w ++ [LogEntry EXCEPTION "Failed to create Firestore client: %s"
                                  [ArgExn e]] |}).
Proof.
  intros Hfs Hc. destruct q; py_unfold; by py_known; py_reduce.
Qed.

Lemma construction_failure_reported_witness :
  invoke (gateway GetAllWarehouses) (MemStore.fresh locked_store) =
    (Value (OList []),
     {| firestore := true; remote := locked_store; calls := [];
        log := [] ++ [LogEntry EXCEPTION "Failed to create Firestore client: %s"
                               [ArgExn (RemoteError "DefaultCredentialsError")]] |}).
Proof.
  apply (construction_failure_reported (MemStore.fresh locked_store) GetAllWarehouses
           (RemoteError "DefaultCredentialsError") locked_store).
  - reflexivity.
  - reflexivity.
Defined.


(** ** Sequences of calls on the in-memory store *)

Section Reliable.
Implicit Types w : @world store.

Lemma elem_of_members (coll : string) (σ : store) (id : string) (data : record) :
  (id, data) ∈ members coll σ ↔ docs σ !! (coll, id) = Some data.
Proof.
  unfold members. rewrite list_elem_of_omap. split.
  - intros ([[c i] d] & Hin & Heq). apply elem_of_map_to_list in Hin.
    cbn in Heq. case_decide; by simplify_eq.
  - intros Hd. exists ((coll, id), data). split; [by apply elem_of_map_to_list|].
    cbn. by rewrite decide_True.
Qed.

Lemma reliable_after c w σ :
  credentials σ = None → faults σ = [] → reliable (after c w σ).
Proof. by intros; repeat split. Qed.

(** A [save_*] function whose identifier is converted and accepted
    ([save_item] with an identifier text that is not empty): the document
    is replaced. *)
Lemma run_set (q : request) (coll id : string) (data : record) w :
  reliable w →
  expected_call q = Some (CallSet coll id data) →
  (∀ item, q = SaveItem item → id ≠ "") →
  invoke (gateway q) w =
    (Value (OBool true),
     after (CallSet coll id data) w
       (with_docs (remote w) (<[(coll, id) := data]> (docs (remote w))))).
Proof.
  intros (Hfs & Hcred & Hfl) Hq Hguard.
  destruct q; cbn [expected_call] in Hq; unfold on_document, text_of in Hq.
  all: try (destruct (py_str _) as [e|s] eqn:Hstr); cbn [mbind option_bind] in Hq.
  all: try (destruct (accepted _ _) eqn:Hacc); simplify_eq.
  1: assert (str_truthy id = true) as Ht
       by (specialize (Hguard _ eq_refl); by destruct id).
  all: py_unfold; rewrite Hfs; cbn [rpc_construct rpc_set store_remote].
  all: unfold construct, MemStore.set, next_fault; rewrite Hcred; py_reduce.
  all: py_known; py_reduce; py_known; py_reduce.
  all: by rewrite Hfl.
Qed.

Lemma run_delete (q : request) (coll id : string) w :
  reliable w →
  is_delete q = Some (coll, id) →
  accepted coll id = true →
  invoke (gateway q) w =
    (Value (OBool true),
     after (CallDelete coll id) w
       (with_docs (remote w) (base.delete (coll, id) (docs (remote w))))).
Proof.
  intros (Hfs & Hcred & Hfl) Hq Hacc.
  destruct q; cbn [is_delete] in Hq; unfold text_of in Hq.
  all: try (destruct (py_str _) as [e|s] eqn:Hstr); cbn in Hq; simplify_eq.
  all: py_unfold; rewrite Hfs; cbn [rpc_construct rpc_delete store_remote].
  all: unfold construct, MemStore.delete, next_fault; rewrite Hcred; py_reduce.
  all: py_known; py_reduce; py_known; py_reduce.
  all: by rewrite Hfl.
Qed.

Lemma run_listing (q : request) (coll : string) (order : option (string * direction)) w :
  reliable w →
  id_injecting_read q = Some (coll, order) →
  invoke (gateway q) w =
    (Value (OList ((λ d, ODict (<["id" := VStr d.1]> d.2)) <$> listing coll order (remote w))),
     after (CallStream coll order) w (remote w)).
Proof.
  intros (Hfs & Hcred & Hfl) Hq.
  destruct q; cbn [id_injecting_read] in Hq; simplify_eq.
  all: py_unfold; rewrite Hfs; cbn [rpc_construct rpc_stream store_remote].
  all: unfold construct, MemStore.stream, next_fault; rewrite Hcred; py_reduce.
  all: rewrite Hfl; py_reduce; by rewrite mapM_inject_snapshots.
Qed.

Lemma run_items w :
  reliable w →
  invoke get_all_items w =
    (Value (OList ((λ d, ODict d.2) <$> members "items" (remote w))),
     after (CallStream "items" None) w (remote w)).
Proof.
  intros (Hfs & Hcred & Hfl).
  py_unfold; rewrite Hfs; cbn [rpc_construct rpc_stream store_remote].
  unfold construct, MemStore.stream, next_fault; rewrite Hcred; py_reduce.
  rewrite Hfl; py_reduce. cbn [listing]. by rewrite <-list_fmap_compose.
Qed.

(** What [get_stock_out_record] returns: the stored fields with the
    identifier, or [None] when there is no such document or the library
    refuses the identifier. *)
Lemma run_get (record_id : string) w :
  reliable w →
  (invoke (get_stock_out_record record_id) w).1 =
    Value (match docs (remote w) !! ("stock_out", record_id) with
           | Some stored =>
               if accepted "stock_out" record_id
               then ODict (<["id" := VStr record_id]> stored)
               else ONone
           | None => ONone
           end).
Proof.
  intros (Hfs & Hcred & Hfl).
  py_unfold; rewrite Hfs; cbn [rpc_construct rpc_get store_remote].
  unfold construct, MemStore.get, next_fault; rewrite Hcred; py_reduce.
  destruct (accepted "stock_out" record_id) eqn:Hacc; py_reduce.
  2: { by destruct (docs (remote w) !! ("stock_out", record_id)). }
  rewrite Hfl; py_reduce. cbn [snap_exists].
  destruct (docs (remote w) !! ("stock_out", record_id)) as [stored|] eqn:Hd.
  - rewrite bool_decide_true by eauto. py_reduce.
    unfold inject_id. cbn. by rewrite dict_or_id.
  - rewrite bool_decide_false by (by intros [? ?]). done.
Qed.

Lemma run_save_stock_out (record_id : string) (data : record) w :
  reliable w →
  invoke (save_stock_out record_id data) w =
    (Value ONone,
     {| firestore := true; remote := remote w; calls := calls w; log := log w |}).
Proof.
  intros (Hfs & Hcred & Hfl).
  py_unfold; rewrite Hfs; cbn [rpc_construct store_remote].
  unfold construct; rewrite Hcred; by py_reduce.
Qed.

End Reliable.

Lemma elem_of_listing (coll : string) (order : option (string * direction)) (σ : store)
    (d : string * record) :
  d ∈ listing coll order σ ↔
    d ∈ members coll σ ∧ (∀ field dir, order = Some (field, dir) → has_field field d).
Proof.
  destruct order as [[field dir]|]; cbn [listing].
  - rewrite merge_sort_Permutation, list_elem_of_filter. split.
    + intros [Hf Hin]. split; [done|]. intros ? ? ?. by simplify_eq.
    + intros [Hin Hf]. split; [|done]. by apply (Hf field dir).
  - split; [|by intros [? _]]. intros Hin. split; [done|]. intros ? ? ?. done.
Qed.

Lemma document_name_nonempty (id : string) : document_name id = true → id ≠ "".
Proof. by intros Hn ->. Qed.

(** X8.  Round trip on the in-memory store, with nothing failing in
    transport.  After [save_stock_in], [save_supplier] or [save_warehouse]
    with an identifier that is a document name, if the save returned
    [True], the collection-wide read of the same collection returns the
    saved data with the identifier under [id], and no other record with
    that identifier: the document was replaced as a whole.  (An ordered
    listing holds a document only if it has the [created_at] field.) *)
Theorem saved_record_is_listed (w : world) (save read : request) (coll id : string)
    (data : record) (order : option (string * direction)) :
  reliable w →
  expected_call save = Some (CallSet coll id data) →
  document_name id = true →
  id_injecting_read read = Some (coll, order) →
  (order ≠ None → is_Some (data !! "created_at")) →
  result save w = Value (OBool true) →
  ∃ rs,
    result read (run save w) = Value (OList rs) ∧
    ODict (<["id" := VStr id]> data) ∈ rs ∧
    ∀ rec, ODict rec ∈ rs → rec !! "id" = Some (VStr id) →
           rec = <["id" := VStr id]> data.
Proof.
  intros Hw Hsave Hname Hread Hfield _.
  assert (∀ item, save = SaveItem item → id ≠ "") as Hguard.
  { intros. by apply document_name_nonempty. }
  pose proof Hw as (Hfs & Hcred & Hfl).
  unfold run, result. rewrite (run_set save coll id data w Hw Hsave Hguard). cbn [snd].
  rewrite (run_listing read coll order) by (done || by apply reliable_after).
  cbn [fst after remote]. eexists. split; [done|]. split.
  - apply list_elem_of_fmap. exists (id, data). split; [done|].
    apply elem_of_listing. split.
    + apply elem_of_members. cbn. apply lookup_insert_eq.
    + intros field dir ->. unfold has_field. cbn.
      destruct read; cbn in Hread; simplify_eq; by apply Hfield.
  - intros rec Hin Hid. apply list_elem_of_fmap in Hin as ([id' d'] & Heq & Hin).
    cbn in Heq. simplify_eq. rewrite lookup_insert_eq in Hid. simplify_eq.
    apply elem_of_listing in Hin as [Hin _]. apply elem_of_members in Hin.
    cbn in Hin. rewrite lookup_insert_eq in Hin. by simplify_eq.
Qed.

Lemma saved_record_is_listed_witness :
  ∃ rs,
    result GetStockInRecords
      (run (SaveStockIn "SI-9" {[ "created_at" := VInt 4 ]}) (fresh stock_store)) =
      Value (OList rs) ∧
    ODict (<["id" := VStr "SI-9"]> {[ "created_at" := VInt 4 ]}) ∈ rs ∧
    ∀ rec, ODict rec ∈ rs → rec !! "id" = Some (VStr "SI-9") →
           rec = <["id" := VStr "SI-9"]> {[ "created_at" := VInt 4 ]}.
Proof.
  apply (saved_record_is_listed (fresh stock_store)
           (SaveStockIn "SI-9" {[ "created_at" := VInt 4 ]}) GetStockInRecords
           "stock_in" "SI-9" {[ "created_at" := VInt 4 ]}
           (Some ("created_at", DESCENDING))).
  - repeat split.
  - reflexivity.
  - reflexivity.
  - reflexivity.
  - intros _. by eexists.
  - vm_compute. reflexivity.
Defined.

(** X9.  Round trip for items on the in-memory store, with nothing failing
    in transport: after [save_item] of a record whose identifier [str]
    converts to a document name, if the save returned [True],
    [get_all_items] returns that record as it was saved. *)
Theorem saved_item_is_listed (w : world) (item : record) (id : string) :
  reliable w →
  py_str (dict_get item "id") = inr id →
  document_name id = true →
  result (SaveItem item) w = Value (OBool true) →
  ∃ rs,
    result GetAllItems (run (SaveItem item) w) = Value (OList rs) ∧
    ODict item ∈ rs.
Proof.
  intros Hw Hid Hname _. pose proof Hw as (Hfs & Hcred & Hfl).
  assert (expected_call (SaveItem item) = Some (CallSet "items" id item)) as Hq.
  { cbn [expected_call]. unfold on_document, text_of. rewrite Hid. cbn [mbind option_bind].
    by rewrite (document_name_accepted "items" id eq_refl Hname). }
  unfold run, result.
  rewrite (run_set (SaveItem item) "items" id item w Hw Hq)
    by (intros; by apply document_name_nonempty).
  cbn [snd gateway]. rewrite run_items by (by apply reliable_after).
  cbn [fst after remote]. eexists. split; [done|].
  apply list_elem_of_fmap. exists (id, item). split; [done|].
  apply elem_of_members. cbn. apply lookup_insert_eq.
Qed.

Lemma saved_item_is_listed_witness :
  ∃ rs,
    result GetAllItems
      (run (SaveItem {[ "id" := VInt 7; "name" := VStr "bolt" ]}) (fresh empty_store)) =
      Value (OList rs) ∧
    ODict {[ "id" := VInt 7; "name" := VStr "bolt" ]} ∈ rs.
Proof.
  apply (saved_item_is_listed (fresh empty_store)
           {[ "id" := VInt 7; "name" := VStr "bolt" ]} "7").
  - repeat split.
  - vm_compute. reflexivity.
  - reflexivity.
  - vm_compute. reflexivity.
Defined.

(** X10.  On the in-memory store, with nothing failing in transport:
    after [delete_stock_in], [delete_stock_out], [delete_supplier] or
    [delete_warehouse] with an identifier that [str] converts and the
    library accepts as a document path, the collection-wide read of the
    same collection returns no record with the deleted identifier, and
    after [delete_stock_out] the single-document read of that identifier
    returns [None]. *)
Theorem deleted_record_is_gone (w : world) (del : request) (coll id : string) :
  reliable w →
  is_delete del = Some (coll, id) →
  accepted coll id = true →
  (∀ read order rs rec,
     id_injecting_read read = Some (coll, order) →
     result read (run del w) = Value (OList rs) →
     ODict rec ∈ rs →
     rec !! "id" ≠ Some (VStr id)) ∧
  (coll = "stock_out" → result (GetStockOutRecord id) (run del w) = Value ONone).
Proof.
  intros Hw Hdel Hacc. pose proof Hw as (Hfs & Hcred & Hfl).
  unfold run, result. rewrite (run_delete del coll id w Hw Hdel Hacc). cbn [snd]. split.
  - intros read order rs rec Hread Hrun Hin Hid.
    rewrite (run_listing read coll order) in Hrun by (done || by apply reliable_after).
    cbn [fst after remote] in Hrun. simplify_eq.
    apply list_elem_of_fmap in Hin as ([id' d'] & Heq & Hin).
    cbn in Heq. simplify_eq. rewrite lookup_insert_eq in Hid. simplify_eq.
    apply elem_of_listing in Hin as [Hin _]. apply elem_of_members in Hin.
    cbn in Hin. by rewrite lookup_delete_eq in Hin.
  - intros ->. cbn [gateway]. rewrite run_get by (by apply reliable_after).
    cbn [after remote with_docs docs]. by rewrite lookup_delete_eq.
Qed.

Lemma deleted_record_is_gone_witness :
  result (GetStockOutRecord "x") (fresh stock_store) =
    Value (ODict {[ "created_at" := VInt 1; "id" := VStr "x" ]}) ∧
  result (GetStockOutRecord "x") (run (DeleteStockOut "x") (fresh stock_store)) =
    Value ONone.
Proof.
  split; [vm_compute; reflexivity|].
  apply (deleted_record_is_gone (fresh stock_store) (DeleteStockOut "x") "stock_out" "x").
  - repeat split.
  - reflexivity.
  - reflexivity.
  - reflexivity.
Defined.

(** X11.  On the in-memory store, what [save_stock_out] was given cannot
    be read back: if no document had the identifier before the call, the
    single-document read still returns [None] after it and the
    collection-wide read of [stock_out] holds no record with that
    identifier. *)
Theorem save_stock_out_is_not_read_back (w : world) (record_id : string) (data : record) :
  reliable w →
  docs (remote w) !! ("stock_out", record_id) = None →
  result (GetStockOutRecord record_id) (run (SaveStockOut record_id data) w) = Value ONone ∧
  ∀ rs rec,
    result GetStockOutRecords (run (SaveStockOut record_id data) w) = Value (OList rs) →
    ODict rec ∈ rs →
    rec !! "id" ≠ Some (VStr record_id).
Proof.
  intros Hw Hnone. pose proof Hw as (Hfs & Hcred & Hfl).
  unfold run, result. cbn [gateway]. rewrite run_save_stock_out by done. cbn [snd].
  split.
  - rewrite run_get by done. cbn [remote]. by rewrite Hnone.
  - intros rs rec Hrun Hin Hid.
    rewrite (run_listing GetStockOutRecords "stock_out" (Some ("created_at", DESCENDING)))
      in Hrun by done.
    cbn [fst remote] in Hrun. simplify_eq.
    apply list_elem_of_fmap in Hin as ([id' d'] & Heq & Hin).
    cbn in Heq. simplify_eq. rewrite lookup_insert_eq in Hid. simplify_eq.
    apply (elem_of_listing "stock_out" (Some ("created_at", DESCENDING))) in Hin
      as [Hin _].
    apply elem_of_members in Hin. cbn in Hin. congruence.
Qed.

Lemma save_stock_out_is_not_read_back_witness :
  result (GetStockOutRecord "SO-1")
    (run (SaveStockOut "SO-1" {[ "created_at" := VInt 9 ]}) (fresh stock_store)) =
    Value ONone.
Proof.
  apply (save_stock_out_is_not_read_back (fresh stock_store) "SO-1"
           {[ "created_at" := VInt 9 ]}).
  - repeat split.
  - vm_compute. reflexivity.
Defined.

(** X13.  On the in-memory store, with nothing failing in transport,
    deletion is idempotent: a [delete_*] function called twice with an
    identifier that [str] converts to a document name returns [True] both
    times, and the second call leaves the documents as the first one left
    them, without the deleted one. *)
Theorem delete_twice (w : world) (del : request) (coll id : string) :
  reliable w →
  is_delete del = Some (coll, id) →
  document_name id = true →
  result del w = Value (OBool true) ∧
  result del (run del w) = Value (OBool true) ∧
  docs (remote (run del (run del w))) = docs (remote (run del w)) ∧
  docs (remote (run del w)) !! (coll, id) = None.
Proof.
  intros Hw Hdel Hname. pose proof Hw as (Hfs & Hcred & Hfl).
  assert (accepted coll id = true) as Hacc.
  { apply document_name_accepted; [|done].
    destruct del; cbn [is_delete] in Hdel; unfold text_of in Hdel.
    all: try (destruct (py_str _)); cbn in Hdel; by simplify_eq. }
  unfold run, result. rewrite (run_delete del coll id w Hw Hdel Hacc). cbn [fst snd].
  rewrite (run_delete del coll id) by (done || by apply reliable_after).
  cbn [fst snd after remote with_docs docs]. repeat split.
  - by rewrite delete_id by apply lookup_delete_eq.
  - apply lookup_delete_eq.
Qed.

Lemma delete_twice_witness :
  result (DeleteSupplier (VStr "s1")) (fresh stock_store) = Value (OBool true) ∧
  result (DeleteSupplier (VStr "s1")) (run (DeleteSupplier (VStr "s1")) (fresh stock_store)) =
    Value (OBool true).
Proof.
  destruct (delete_twice (fresh stock_store) (DeleteSupplier (VStr "s1")) "suppliers" "s1")
    as (H1 & H2 & _); [repeat split | reflexivity | reflexivity |].
  by split.
Defined.
